(** * calicoctl convert: v1 -> v3 resource conversion

    A shallow embedding of [calicoctl/commands/convert.go]: the per-kind
    dispatch of [convertResource], the two-stage [convert], and the driver
    [Convert] with its effects (standard output, logging, process exit, the
    call of the resource printer). *)

From Stdlib Require Import ZArith NArith Ascii String.
From stdpp Require Import base list strings gmap.

Local Open Scope string_scope.
Local Open Scope list_scope.

(** ** Go strings

    A Go string is a sequence of bytes; [String.string] is a list of
    [ascii], one per byte. *)

Module GoStrings.

Definition byte_val (c : ascii) : N := N_of_ascii c.

(** [utf8.RuneSelf]: bytes below it are single-byte runes. *)
Definition RuneSelf : N := 128.

(** [c >= 'A' && c <= 'Z'] *)
Definition isUpperByte (c : ascii) : bool :=
  ((65 <=? byte_val c) && (byte_val c <=? 90))%N.

(** [c >= 'a' && c <= 'z'] *)
Definition isLowerByte (c : ascii) : bool :=
  ((97 <=? byte_val c) && (byte_val c <=? 122))%N.

(** [c += 'a' - 'A'] when [c] is an upper-case ASCII letter. *)
Definition lowerByte (c : ascii) : ascii :=
  if isUpperByte c then ascii_of_N (byte_val c + 32) else c.

(** The upper-case form of a lower-case ASCII letter. *)
Definition upperByte (c : ascii) : ascii :=
  if isLowerByte c then ascii_of_N (byte_val c - 32) else c.

Fixpoint isASCII (s : string) : bool :=
  match s with
  | EmptyString => true
  | String c s' => if (RuneSelf <=? byte_val c)%N then false else isASCII s'
  end.

Fixpoint hasUpper (s : string) : bool :=
  match s with
  | EmptyString => false
  | String c s' => isUpperByte c || hasUpper s'
  end.

Fixpoint lowerBytes (s : string) : string :=
  match s with
  | EmptyString => EmptyString
  | String c s' => String (lowerByte c) (lowerBytes s')
  end.

(** [strings.ToLower].  A string with a byte outside ASCII goes through
    [strings.Map(unicode.ToLower, s)], which depends on the Unicode case
    tables of the Go runtime: [mapUnicodeToLower] stands for it. *)
Definition ToLower (mapUnicodeToLower : string -> string) (s : string) : string :=
  if isASCII s then
    if hasUpper s then lowerBytes s else s
  else mapUnicodeToLower s.

(** [strings.Join]. *)
Fixpoint Join (elems : list string) (sep : string) : string :=
  match elems with
  | [] => ""
  | [e] => e
  | e :: rest => e +:+ sep +:+ Join rest sep
  end.

(** [k] is a letter-casing of the lower-case word [s]: the same length,
    and at every position the letter of [s] or its upper-case form. *)
Fixpoint is_casing (s k : string) : bool :=
  match s, k with
  | EmptyString, EmptyString => true
  | String a s', String b k' =>
      (bool_decide (b = a) || bool_decide (b = upperByte a)) && is_casing s' k'
  | _, _ => false
  end.

Fixpoint all_lower (s : string) : bool :=
  match s with
  | EmptyString => true
  | String c s' => isLowerByte c && all_lower s'
  end.

End GoStrings.

(** ** Data of the imported packages *)

(** [unversioned.TypeMetadata]. *)
Record TypeMetadata := { Kind : string; APIVersion : string }.

(** A value of the [map[string]interface{}] that [docopt.Parse] returns. *)
Inductive docoptValue :=
| VString (s : string)
| VBool (b : bool)
| VList (l : list string)
| VNil.

(** The types the command takes from libcalico-go.  They are opaque to
    this file: only [GetTypeMetadata] and the [Error] method are used. *)
Class Datatypes := {
  (** [unversioned.Resource] *)
  Resource : Type;
  GetTypeMetadata : Resource -> TypeMetadata;
  (** [model.KVPair] *)
  KVPair : Type;
  (** a non-nil value of [conversion.Resource], which is a [runtime.Object] *)
  V3Resource : Type;
  (** an error value made by an imported package, and its [Error()] text *)
  LibraryError : Type;
  LibraryError_Error : LibraryError -> string
}.

Section Values.
Context `{Datatypes}.

(** A Go [error] that is not nil: the [*errorString] of [fmt.Errorf], or an
    error of an imported package.  The nil error is [None]. *)
Inductive error :=
| errorString (s : string)
| libraryError (e : LibraryError).

(** The [Error()] method, what [%v] and [fmt.Println] show. *)
Definition Error (err : error) : string :=
  match err with
  | errorString s => s
  | libraryError e => LibraryError_Error e
  end.

(** [runtime.Object] and [conversion.Resource] are interfaces: [None] is the
    nil interface value. *)
Definition Object : Type := option V3Resource.

(** [conversion.Converter].  [*model.KVPair] is a pointer, nil is [None];
    each method returns its pair of results as Go does. *)
Record Converter := {
  APIV1ToBackendV1 : Resource -> option KVPair * option error;
  BackendV1ToAPIV3 : option KVPair -> Object * option error
}.

(** [resourcePrinter]: [print(client, resources) error].  [Convert] passes a
    nil client. *)
Record resourcePrinter := {
  print : list Object -> option error
}.

(** ** Effects of the command *)

Inductive event :=
| Stdout (text : string)
| LogInfof (format : string) (args : list Object)
| PrinterCall (rp : resourcePrinter) (resources : list Object).

Inductive outcome (A : Type) :=
| Done (a : A)
| Exit (code : Z)
| Panic.

(** A computation: the events it emits, in order, and how it ends. *)
Definition M (A : Type) : Type := list event * outcome A.

Definition ret {A} (a : A) : M A := ([], Done A a).

Definition bind {A B} (m : M A) (k : A -> M B) : M B :=
  match m with
  | (t, Done _ a) => let '(t', o) := k a in (t ++ t', o)
  | (t, Exit _ code) => (t, Exit B code)
  | (t, Panic _) => (t, Panic B)
  end.

End Values.

Arguments Done {_} a.
Arguments Exit {_} code.
Arguments Panic {_}.

(** [M] with stdpp's monad notations: [x ← m; k] and [m;; k]. *)
#[global] Instance M_ret `{Datatypes} : MRet M := @ret _.
#[global] Instance M_bind `{Datatypes} : MBind M := fun A B k m => bind m k.

(** ** The packages the command calls *)

(** What the command calls outside this file, by its results; what those
    calls print or log themselves is not followed. *)
Class Packages `{Datatypes} := {
  (** [strings.Map(unicode.ToLower, s)] *)
  mapUnicodeToLower : string -> string;
  (** [conversion.Node{}], ... : the seven converters of libcalico-go *)
  Node : Converter;
  HostEndpoint : Converter;
  WorkloadEndpoint : Converter;
  Profile : Converter;
  Policy : Converter;
  IPPool : Converter;
  BGPPeer : Converter;
  (** [resourcePrinterYAML{}] and [resourcePrinterJSON{}] *)
  resourcePrinterYAML : resourcePrinter;
  resourcePrinterJSON : resourcePrinter;
  (** the usage text, [constants.DatastoreIntro] followed by the literal *)
  doc : string;
  (** [docopt.Parse(doc, args, true, "", false, false)] *)
  docopt_Parse : string -> list string -> gmap string docoptValue * option error;
  (** [argutils.ArgStringOrBlank] *)
  ArgStringOrBlank : gmap string docoptValue -> string -> string;
  (** [v1resourceloader.CreateResourcesFromFile] *)
  CreateResourcesFromFile : string -> list Resource * option error
}.

(** ** The command *)

Section Commands.
Context {dt : Datatypes} {pk : Packages}.

(** The line feed that ends a printed line. *)
Definition nl : string := String (ascii_of_N 10) EmptyString.

Definition fmt_Printf (text : string) : M unit := ([Stdout text], Done tt).

(** [fmt.Println(err)]: the error's text and a line feed. *)
Definition fmt_Println (err : error) : M unit := ([Stdout (Error err +:+ nl)], Done tt).

Definition os_Exit {A} (code : Z) : M A := ([], Exit code).

Definition log_Infof (format : string) (args : list Object) : M unit :=
  ([LogInfof format args], Done tt).

(** [rp.print(nil, results)]: the call is recorded, its result is the
    printer's. *)
Definition rp_print (rp : resourcePrinter) (results : list Object) : M (option error) :=
  ([PrinterCall rp results], Done (print rp results)).

(** [x.(string)]: panics unless the interface value holds a string. *)
Definition assert_string (v : option docoptValue) : M string :=
  match v with
  | Some (VString s) => ret s
  | _ => ([], Panic)
  end.

(** [convert]. *)
Definition convert (convRes : Converter) (v1resource : Resource) : Object * option error :=
  let '(kvp, err) := APIV1ToBackendV1 convRes v1resource in
  match err with
  | Some e => (None, Some e)
  | None =>
      let '(res, err) := BackendV1ToAPIV3 convRes kvp in
      match err with
      | Some e => (None, Some e)
      | None => (res, None)
      end
  end.

(** [convertResource].  The [switch] compares the lower-cased kind with each
    case in turn. *)
Definition convertResource (v1resource : Resource) : Object * option error :=
  let kind := GoStrings.ToLower mapUnicodeToLower (Kind (GetTypeMetadata v1resource)) in
  if String.eqb kind "node" then convert Node v1resource
  else if String.eqb kind "hostendpoint" then convert HostEndpoint v1resource
  else if String.eqb kind "workloadendpoint" then convert WorkloadEndpoint v1resource
  else if String.eqb kind "profile" then convert Profile v1resource
  else if String.eqb kind "policy" then convert Policy v1resource
  else if String.eqb kind "ippool" then convert IPPool v1resource
  else if String.eqb kind "bgppeer" then convert BGPPeer v1resource
  else (None,
        Some (errorString ("conversion for the resource type '"
                           +:+ Kind (GetTypeMetadata v1resource)
                           +:+ "' is not supported"))).

(** The [for _, v1Resource := range resV1] loop of [Convert], from the
    [results] collected so far. *)
Fixpoint Convert_range (resV1 : list Resource) (results : list Object) : M (list Object) :=
  match resV1 with
  | [] => ret results
  | v1Resource :: rest =>
      let '(v3Resource, err) := convertResource v1Resource in
      match err with
      | Some e =>
          fmt_Printf ("Failed to execute command: " +:+ Error e +:+ nl);;
          os_Exit 1
      | None => Convert_range rest (results ++ [v3Resource])
      end
  end.

(** [Convert] from [var results []runtime.Object] to its end: the loop, the
    log line and the printer. *)
Definition Convert_resources (rp : resourcePrinter) (resV1 : list Resource) : M unit :=
  results ← Convert_range resV1 [];
  log_Infof "results: %+v" results;;
  err ← rp_print rp results;
  match err with
  | Some e => fmt_Println e
  | None => ret tt
  end.

(** The [switch output] of [Convert]; [None] is the nil printer. *)
Definition select_printer (output : string) : option resourcePrinter :=
  if String.eqb output "yaml" || String.eqb output "yml" then Some resourcePrinterYAML
  else if String.eqb output "json" then Some resourcePrinterJSON
  else None.

(** [Convert]. *)
Definition Convert (args : list string) : M unit :=
  let '(parsedArgs, err) := docopt_Parse doc args in
  match err with
  | Some _ =>
      fmt_Printf ("Invalid option: 'calicoctl " +:+ GoStrings.Join args " "
                  +:+ "'. Use flag '--help' to read about a specific subcommand." +:+ nl);;
      os_Exit 1
  | None =>
      if bool_decide (size parsedArgs = 0) then ret tt
      else
        output ← assert_string (parsedArgs !! "--output");
        match select_printer output with
        | None =>
            fmt_Printf ("unrecognized output format '" +:+ output +:+ "'" +:+ nl);;
            os_Exit 1
        | Some rp =>
            let filename := ArgStringOrBlank parsedArgs "--filename" in
            let '(resV1, err) := CreateResourcesFromFile filename in
            match err with
            | Some e =>
                fmt_Printf ("Failed to execute command: " +:+ Error e +:+ nl);;
                os_Exit 1
            | None => Convert_resources rp resV1
            end
        end
  end.

End Commands.

(** ** The calls of the stages

    [convert] and [convertResource] again, this time with every call of a
    method of a converter recorded, so that which stage was called, on what
    and in which order can be stated. *)

Section StageCalls.
Context {dt : Datatypes} {pk : Packages}.

(** A call of a method of a converter, with the converter and the
    argument. *)
Inductive stage_call :=
| Call_APIV1ToBackendV1 (convRes : Converter) (v1resource : Resource)
| Call_BackendV1ToAPIV3 (convRes : Converter) (kvp : option KVPair).

(** A computation that calls stages: the calls it made, in order, and its
    value. *)
Record Calls (A : Type) := { calls : list stage_call; value : A }.

Definition calls_ret {A} (a : A) : Calls A := {| calls := []; value := a |}.

Definition calls_bind {A B} (m : Calls A) (k : A -> Calls B) : Calls B :=
  {| calls := calls A m ++ calls B (k (value A m)); value := value B (k (value A m)) |}.

(** [convRes.APIV1ToBackendV1(v1resource)] *)
Definition call_APIV1ToBackendV1 (convRes : Converter) (v1resource : Resource)
  : Calls (option KVPair * option error) :=
  {| calls := [Call_APIV1ToBackendV1 convRes v1resource];
     value := APIV1ToBackendV1 convRes v1resource |}.

(** [convRes.BackendV1ToAPIV3(kvp)] *)
Definition call_BackendV1ToAPIV3 (convRes : Converter) (kvp : option KVPair)
  : Calls (Object * option error) :=
  {| calls := [Call_BackendV1ToAPIV3 convRes kvp];
     value := BackendV1ToAPIV3 convRes kvp |}.

(** [convert], with its calls. *)
Definition convert_calls (convRes : Converter) (v1resource : Resource)
  : Calls (Object * option error) :=
  calls_bind (call_APIV1ToBackendV1 convRes v1resource) (fun '(kvp, err) =>
  match err with
  | Some e => calls_ret (None, Some e)
  | None =>
      calls_bind (call_BackendV1ToAPIV3 convRes kvp) (fun '(res, err) =>
      match err with
      | Some e => calls_ret (None, Some e)
      | None => calls_ret (res, None)
      end)
  end).

(** [convertResource], with the calls of the [convert] it runs. *)
Definition convertResource_calls (v1resource : Resource) : Calls (Object * option error) :=
  let kind := GoStrings.ToLower mapUnicodeToLower (Kind (GetTypeMetadata v1resource)) in
  if String.eqb kind "node" then convert_calls Node v1resource
  else if String.eqb kind "hostendpoint" then convert_calls HostEndpoint v1resource
  else if String.eqb kind "workloadendpoint" then convert_calls WorkloadEndpoint v1resource
  else if String.eqb kind "profile" then convert_calls Profile v1resource
  else if String.eqb kind "policy" then convert_calls Policy v1resource
  else if String.eqb kind "ippool" then convert_calls IPPool v1resource
  else if String.eqb kind "bgppeer" then convert_calls BGPPeer v1resource
  else calls_ret
         (None,
          Some (errorString ("conversion for the resource type '"
                             +:+ Kind (GetTypeMetadata v1resource)
                             +:+ "' is not supported"))).

(** The calls of the second stage among some calls. *)
Definition is_second_stage (call : stage_call) : bool :=
  match call with
  | Call_BackendV1ToAPIV3 _ _ => true
  | Call_APIV1ToBackendV1 _ _ => false
  end.

Definition second_stage_calls (l : list stage_call) : list stage_call :=
  List.filter is_second_stage l.

End StageCalls.

Arguments calls {_ _} _.
Arguments value {_ _} _.

(** ** The dispatcher as the specification words it *)

Section Specification.
Context {dt : Datatypes} {pk : Packages}.

(** The recognized kinds, a fixed and closed set, each with its converter. *)
Definition recognized_kinds : list (string * Converter) :=
  [ ("node", Node); ("hostendpoint", HostEndpoint);
    ("workloadendpoint", WorkloadEndpoint); ("profile", Profile);
    ("policy", Policy); ("ippool", IPPool); ("bgppeer", BGPPeer) ].

Definition recognized_names : list string := recognized_kinds.*1.

Inductive dispatch_result :=
| Dispatched (c : Converter)
| UnsupportedKind (kind : string).

Fixpoint table_lookup (table : list (string * Converter)) (name : string) : option Converter :=
  match table with
  | [] => None
  | (n, c) :: table' => if String.eqb name n then Some c else table_lookup table' name
  end.

(** [dispatch(kind)]: the kind is put in lower case and looked up in the
    table; an unknown kind is reported as it was given. *)
Definition spec_dispatch (kind : string) : dispatch_result :=
  match table_lookup recognized_kinds (GoStrings.ToLower mapUnicodeToLower kind) with
  | Some c => Dispatched c
  | None => UnsupportedKind kind
  end.

(** The text of the error for an unsupported kind. *)
Definition unsupported_message (kind : string) : string :=
  "conversion for the resource type '" +:+ kind +:+ "' is not supported".

(** Running the two stages of what the dispatcher found. *)
Definition run_dispatched (d : dispatch_result) (v1resource : Resource) : Object * option error :=
  match d with
  | Dispatched c => convert c v1resource
  | UnsupportedKind kind => (None, Some (errorString (unsupported_message kind)))
  end.

(** The first error of a batch, if a resource of it fails to convert. *)
Fixpoint first_error (resV1 : list Resource) : option error :=
  match resV1 with
  | [] => None
  | r :: rest =>
      match (convertResource r).2 with
      | Some e => Some e
      | None => first_error rest
      end
  end.

(** The line [Convert] prints for a failure. *)
Definition failure_line (e : error) : string :=
  "Failed to execute command: " +:+ Error e +:+ nl.

(** The resource sequences handed to a printer during a run. *)
Definition printed (t : list event) : list (list Object) :=
  omap (fun ev => match ev with PrinterCall _ rs => Some rs | _ => None end) t.

(** What each resource of a batch converts to. *)
Definition conversions (resV1 : list Resource) : list Object :=
  (fun r => (convertResource r).1) <$> resV1.

(** The resource converts: [convertResource] returns a nil error. *)
Definition converts (r : Resource) : Prop := (convertResource r).2 = None.

(** The events of [Convert] after a loop that ran to its end. *)
Definition after_loop (rp : resourcePrinter) (results : list Object) : list event :=
  [LogInfof "results: %+v" results; PrinterCall rp results]
  ++ match print rp results with
     | Some e => [Stdout (Error e +:+ nl)]
     | None => []
     end.

End Specification.

(** ** A small instance to run the definitions on

    Resources with a name; a converter keeps the name under its own tag,
    rejects an empty name in its first stage, and in its second stage answers
    the name [both] with a value and an error at once. *)

Module Fixture.

Record toyResource := { toy_meta : TypeMetadata; toy_name : string }.

Definition toy (kind name : string) : toyResource :=
  {| toy_meta := {| Kind := kind; APIVersion := "v1" |}; toy_name := name |}.

Definition datatypes : Datatypes :=
  {| Resource := toyResource;
     GetTypeMetadata := toy_meta;
     KVPair := string * string;
     V3Resource := string;
     LibraryError := string;
     LibraryError_Error := fun s => s |}.

Definition toyError (text : string) : @error datatypes := @libraryError datatypes text.

Definition toyConverter (tag : string) : @Converter datatypes :=
  {| APIV1ToBackendV1 := fun r : @Resource datatypes =>
       if String.eqb (toy_name r) "" then (None, Some (toyError "name is required"))
       else (Some (tag, toy_name r), None);
     BackendV1ToAPIV3 := fun kvp : option (@KVPair datatypes) =>
       match kvp with
       | None => (None, Some (toyError "no key"))
       | Some (t, n) =>
           if String.eqb n "both" then (Some (t +:+ "/" +:+ n), Some (toyError "bad value"))
           else (Some (t +:+ "/" +:+ n), None)
       end |}.

Definition printerOK : @resourcePrinter datatypes := {| print := fun _ => None |}.

Definition printerFailing : @resourcePrinter datatypes :=
  {| print := fun _ => Some (toyError "write failed") |}.

Definition packages : @Packages datatypes :=
  {| mapUnicodeToLower := fun s => s;
     Node := toyConverter "Node";
     HostEndpoint := toyConverter "HostEndpoint";
     WorkloadEndpoint := toyConverter "WorkloadEndpoint";
     Profile := toyConverter "Profile";
     Policy := toyConverter "GlobalNetworkPolicy";
     IPPool := toyConverter "IPPool";
     BGPPeer := toyConverter "BGPPeer";
     resourcePrinterYAML := printerOK;
     resourcePrinterJSON := printerFailing;
     doc := "Usage: calicoctl convert";
     docopt_Parse := fun _ _ => (∅, None);
     ArgStringOrBlank := fun _ _ => "";
     CreateResourcesFromFile := fun _ => ([], None) |}.

Definition validNode : toyResource := toy "Node" "node-1".
Definition validPolicy : toyResource := toy "policy" "allow-all".
Definition unknownKindResource : toyResource := toy "Widget" "w".
Definition namelessProfile : toyResource := toy "profile" "".
Definition bothPeer : toyResource := toy "BGPPEER" "both".

End Fixture.

(** ** The paths through [Convert] *)

Section Paths.
Context {dt : Datatypes} {pk : Packages}.

(** The line printed when [docopt.Parse] refuses the arguments. *)
Definition invalid_option_line (args : list string) : string :=
  "Invalid option: 'calicoctl " +:+ GoStrings.Join args " "
  +:+ "'. Use flag '--help' to read about a specific subcommand." +:+ nl.

(** The line printed for an output format that has no printer. *)
Definition unrecognized_format_line (output : string) : string :=
  "unrecognized output format '" +:+ output +:+ "'" +:+ nl.

(** The ways a run of [Convert] on [args] can go, one constructor for each
    place where the function returns, exits or panics, with the run it
    makes there. *)
Inductive Convert_path (args : list string) : M unit -> Prop :=
| path_invalid_option parsedArgs e :
    docopt_Parse doc args = (parsedArgs, Some e) ->
    Convert_path args ([Stdout (invalid_option_line args)], Exit 1)
| path_no_arguments parsedArgs :
    docopt_Parse doc args = (parsedArgs, None) ->
    size parsedArgs = 0 ->
    Convert_path args ([], Done tt)
| path_output_not_string parsedArgs :
    docopt_Parse doc args = (parsedArgs, None) ->
    size parsedArgs <> 0 ->
    (forall output, parsedArgs !! "--output" <> Some (VString output)) ->
    Convert_path args ([], Panic)
| path_unrecognized_format parsedArgs output :
    docopt_Parse doc args = (parsedArgs, None) ->
    size parsedArgs <> 0 ->
    parsedArgs !! "--output" = Some (VString output) ->
    select_printer output = None ->
    Convert_path args ([Stdout (unrecognized_format_line output)], Exit 1)
| path_load_error parsedArgs output rp resV1 e :
    docopt_Parse doc args = (parsedArgs, None) ->
    size parsedArgs <> 0 ->
    parsedArgs !! "--output" = Some (VString output) ->
    select_printer output = Some rp ->
    CreateResourcesFromFile (ArgStringOrBlank parsedArgs "--filename") = (resV1, Some e) ->
    Convert_path args ([Stdout (failure_line e)], Exit 1)
| path_conversion_error parsedArgs output rp resV1 e :
    docopt_Parse doc args = (parsedArgs, None) ->
    size parsedArgs <> 0 ->
    parsedArgs !! "--output" = Some (VString output) ->
    select_printer output = Some rp ->
    CreateResourcesFromFile (ArgStringOrBlank parsedArgs "--filename") = (resV1, None) ->
    first_error resV1 = Some e ->
    Convert_path args ([Stdout (failure_line e)], Exit 1)
| path_printed parsedArgs output rp resV1 :
    docopt_Parse doc args = (parsedArgs, None) ->
    size parsedArgs <> 0 ->
    parsedArgs !! "--output" = Some (VString output) ->
    select_printer output = Some rp ->
    CreateResourcesFromFile (ArgStringOrBlank parsedArgs "--filename") = (resV1, None) ->
    first_error resV1 = None ->
    Convert_path args (after_loop rp (conversions resV1), Done tt).

(** The output formats that have a printer. *)
Definition output_formats : list string := ["yaml"; "yml"; "json"].

End Paths.

(** ** A command line for the small instance

    The arguments are read by position, an absent output format is the
    default yaml of the usage text, the help gives an empty map, and
    anything else is refused; the files are a fixed few. *)

Module CommandLine.
Import Fixture.

Definition parse (usage : string) (args : list string)
  : gmap string docoptValue * option (@error datatypes) :=
  match args with
  | ["--help"] => (∅, None)
  | ["-f"; f] =>
      (<["--output" := VString "yaml"]> {["--filename" := VString f]}, None)
  | ["-f"; f; "-o"; o] =>
      (<["--output" := VString o]> {["--filename" := VString f]}, None)
  | _ => (∅, Some (toyError "invalid arguments"))
  end.

Definition argStringOrBlank (parsedArgs : gmap string docoptValue) (key : string) : string :=
  match parsedArgs !! key with
  | Some (VString s) => s
  | _ => ""
  end.

Definition load (filename : string) : list toyResource * option (@error datatypes) :=
  if String.eqb filename "nodes.yaml" then ([validNode; validPolicy], None)
  else if String.eqb filename "mixed.yaml" then
    ([validNode; unknownKindResource; validPolicy], None)
  else if String.eqb filename "cut.yaml" then ([validNode], Some (toyError "unexpected end"))
  else ([], Some (toyError "no such file")).

Definition printerYAML : @resourcePrinter datatypes := {| print := fun _ => None |}.

Definition printerJSON : @resourcePrinter datatypes :=
  {| print := fun rs => if bool_decide (rs = []) then Some (toyError "nothing to print") else None |}.

Definition packages : @Packages datatypes :=
  {| mapUnicodeToLower := fun s => s;
     Node := toyConverter "Node";
     HostEndpoint := toyConverter "HostEndpoint";
     WorkloadEndpoint := toyConverter "WorkloadEndpoint";
     Profile := toyConverter "Profile";
     Policy := toyConverter "GlobalNetworkPolicy";
     IPPool := toyConverter "IPPool";
     BGPPeer := toyConverter "BGPPeer";
     resourcePrinterYAML := printerYAML;
     resourcePrinterJSON := printerJSON;
     doc := "Usage: calicoctl convert --filename=<FILENAME> [--output=<OUTPUT>]";
     docopt_Parse := parse;
     ArgStringOrBlank := argStringOrBlank;
     CreateResourcesFromFile := load |}.

End CommandLine.

(** ** Lower-casing of letter-casings *)

Module GoStringsFacts.
Import GoStrings.

Example casings_of_node :
  is_casing "node" "Node" && is_casing "node" "NODE" && is_casing "node" "node"
  && negb (is_casing "node" "nodes") && negb (is_casing "node" "Mode") = true.
Proof. reflexivity. Qed.

Lemma lower_letter (a : ascii) :
  isLowerByte a = true ->
  isUpperByte a = false /\ (RuneSelf <=? byte_val a)%N = false.
Proof.
  destruct a as [[] [] [] [] [] [] [] []]; intros Hlow;
    vm_compute in Hlow; try discriminate; vm_compute; auto.
Qed.

Lemma upper_of_lower_letter (a : ascii) :
  isLowerByte a = true ->
  lowerByte (upperByte a) = a /\ (RuneSelf <=? byte_val (upperByte a))%N = false.
Proof.
  destruct a as [[] [] [] [] [] [] [] []]; intros Hlow;
    vm_compute in Hlow; try discriminate; vm_compute; auto.
Qed.

Lemma lowerByte_not_upper (c : ascii) : isUpperByte c = false -> lowerByte c = c.
Proof. unfold lowerByte. intros ->. reflexivity. Qed.

Lemma lowerBytes_no_upper (s : string) : hasUpper s = false -> lowerBytes s = s.
Proof.
  induction s as [|c s IH]; simpl; [reflexivity|].
  intros [Hc Hs]%orb_false_iff.
  rewrite lowerByte_not_upper, IH; auto.
Qed.

(** On an ASCII-only string [ToLower] is the byte-wise lower-casing,
    whatever the Unicode tables say. *)
Lemma ToLower_ASCII (f : string -> string) (s : string) :
  isASCII s = true -> ToLower f s = lowerBytes s.
Proof.
  unfold ToLower. intros ->.
  destruct (hasUpper s) eqn:Hup; [reflexivity|].
  symmetry. apply lowerBytes_no_upper, Hup.
Qed.

Lemma casing_char (a b : ascii) :
  isLowerByte a = true ->
  bool_decide (b = a) || bool_decide (b = upperByte a) = true ->
  lowerByte b = a /\ (RuneSelf <=? byte_val b)%N = false.
Proof.
  intros Hlow [Hb|Hb]%orb_true_iff; apply bool_decide_eq_true in Hb; subst b.
  - destruct (lower_letter a Hlow) as [Hup Hself].
    split; [apply lowerByte_not_upper, Hup | exact Hself].
  - apply upper_of_lower_letter, Hlow.
Qed.

Lemma casing_isASCII (s : string) :
  all_lower s = true -> forall k, is_casing s k = true -> isASCII k = true.
Proof.
  induction s as [|a s IH]; intros Hlow [|b k] Hk; simpl in *; try discriminate; auto.
  apply andb_true_iff in Hlow as [Ha Hs].
  apply andb_true_iff in Hk as [Hb Hk].
  destruct (casing_char a b Ha Hb) as [_ ->]. eauto.
Qed.

Lemma casing_lowerBytes (s : string) :
  all_lower s = true -> forall k, is_casing s k = true -> lowerBytes k = s.
Proof.
  induction s as [|a s IH]; intros Hlow [|b k] Hk; simpl in *; try discriminate; auto.
  apply andb_true_iff in Hlow as [Ha Hs].
  apply andb_true_iff in Hk as [Hb Hk].
  destruct (casing_char a b Ha Hb) as [-> _].
  f_equal. eauto.
Qed.

(** [strings.ToLower] sends every letter-casing of a lower-case word to
    that word. *)
Lemma ToLower_casing (f : string -> string) (s k : string) :
  all_lower s = true -> is_casing s k = true -> ToLower f k = s.
Proof.
  intros Hlow Hk.
  rewrite ToLower_ASCII by eauto using casing_isASCII.
  eauto using casing_lowerBytes.
Qed.

End GoStringsFacts.

(** ** The two stages and the dispatch *)

Section ConversionFacts.
Context {dt : Datatypes} {pk : Packages}.

Implicit Types (c : Converter) (r : Resource) (e : error).

Lemma convert_stage1_error c r kvp e :
  APIV1ToBackendV1 c r = (kvp, Some e) -> convert c r = (None, Some e).
Proof. unfold convert. intros ->. reflexivity. Qed.

Lemma convert_stage2 c r kvp :
  APIV1ToBackendV1 c r = (kvp, None) ->
  convert c r = match BackendV1ToAPIV3 c kvp with
                | (_, Some e) => (None, Some e)
                | (res, None) => (res, None)
                end.
Proof.
  unfold convert. intros ->.
  destruct (BackendV1ToAPIV3 c kvp) as [res [e|]]; reflexivity.
Qed.

(** A conversion that succeeded went through both stages. *)
Lemma convert_ok_inv c r res :
  convert c r = (res, None) ->
  exists kvp, APIV1ToBackendV1 c r = (kvp, None) /\ BackendV1ToAPIV3 c kvp = (res, None).
Proof.
  unfold convert.
  destruct (APIV1ToBackendV1 c r) as [kvp [e|]]; [discriminate|].
  destruct (BackendV1ToAPIV3 c kvp) as [res' [e|]] eqn:Hstage2; [discriminate|].
  intros [= ->]. exists kvp. split; [reflexivity | exact Hstage2].
Qed.

Lemma convert_error_nil c r e : (convert c r).2 = Some e -> (convert c r).1 = None.
Proof.
  unfold convert.
  destruct (APIV1ToBackendV1 c r) as [kvp [e1|]]; [reflexivity|].
  destruct (BackendV1ToAPIV3 c kvp) as [res [e2|]]; [reflexivity|discriminate].
Qed.

(** [convertResource] is the dispatcher of the specification followed by
    the two stages. *)
Lemma convertResource_dispatch r :
  convertResource r = run_dispatched (spec_dispatch (Kind (GetTypeMetadata r))) r.
Proof.
  unfold convertResource, spec_dispatch, recognized_kinds. simpl.
  repeat (match goal with
          | |- context [String.eqb ?a ?b] => destruct (String.eqb a b)
          end; [reflexivity|]).
  reflexivity.
Qed.

Lemma table_lookup_elem (table : list (string * Converter)) name c :
  table_lookup table name = Some c -> (name, c) ∈ table.
Proof.
  induction table as [|[n c'] table IH]; simpl; [discriminate|].
  destruct (String.eqb name n) eqn:Hn.
  - apply String.eqb_eq in Hn as ->. intros [= ->]. left.
  - intros Hc. right. auto.
Qed.

Lemma table_lookup_None (table : list (string * Converter)) name :
  name ∉ table.*1 -> table_lookup table name = None.
Proof.
  induction table as [|[n c'] table IH]; simpl; [reflexivity|].
  intros Hnot. apply not_elem_of_cons in Hnot as [Hne Hnot].
  destruct (String.eqb name n) eqn:Hn; [apply String.eqb_eq in Hn; contradiction|].
  auto.
Qed.

Lemma convertResource_unsupported r :
  GoStrings.ToLower mapUnicodeToLower (Kind (GetTypeMetadata r)) ∉ recognized_names ->
  convertResource r
  = (None, Some (errorString (unsupported_message (Kind (GetTypeMetadata r))))).
Proof.
  intros Hnot. rewrite convertResource_dispatch. unfold spec_dispatch.
  rewrite table_lookup_None by exact Hnot. reflexivity.
Qed.

(** A resource that converts was dispatched to one of the seven. *)
Lemma convertResource_ok_inv r :
  (convertResource r).2 = None ->
  exists name c, (name, c) ∈ recognized_kinds /\ convertResource r = convert c r.
Proof.
  rewrite convertResource_dispatch. unfold spec_dispatch.
  destruct (table_lookup recognized_kinds _) as [c|] eqn:Hc; simpl; [|discriminate].
  intros _. eauto using table_lookup_elem.
Qed.

Lemma convertResource_error_nil r e :
  (convertResource r).2 = Some e -> (convertResource r).1 = None.
Proof.
  rewrite convertResource_dispatch.
  destruct (spec_dispatch _); simpl; [apply convert_error_nil | reflexivity].
Qed.

End ConversionFacts.

(** ** The loop and the driver *)

Section DriverFacts.
Context {dt : Datatypes} {pk : Packages}.

Implicit Types (r : Resource) (e : error) (results : list Object)
  (rp : resourcePrinter).

Lemma first_error_None (resV1 : list Resource) : first_error resV1 = None <-> Forall converts resV1.
Proof.
  induction resV1 as [|r resV1 IH]; simpl.
  - split; auto.
  - rewrite Forall_cons, <- IH. unfold converts.
    destruct (convertResource r).2; split; [discriminate | intros [? _]; discriminate | auto
                                            | intros [_ ?]; assumption].
Qed.

(** The first error belongs to the first resource that fails. *)
Lemma first_error_split (resV1 : list Resource) :
  Exists (fun r => ~ converts r) resV1 ->
  exists pre bad post e,
    resV1 = pre ++ bad :: post /\ Forall converts pre /\
    (convertResource bad).2 = Some e /\ first_error resV1 = Some e.
Proof.
  induction resV1 as [|r resV1 IH]; intros Hex.
  - apply Exists_nil in Hex. contradiction.
  - destruct (convertResource r).2 as [e|] eqn:Hr.
    + exists [], r, resV1, e. simpl. rewrite Hr. auto.
    + apply Exists_cons in Hex as [Hbad|Hex]; [contradiction|].
      destruct (IH Hex) as (pre & bad & post & e & -> & Hpre & Hbad & Hfirst).
      exists (r :: pre), bad, post, e. simpl. rewrite Hr. auto.
Qed.

(** The loop in closed form: it stops at the first error, printing its
    line and exiting with status 1, and otherwise returns what it had plus
    the conversions, in order. *)
Lemma Convert_range_closed (resV1 : list Resource) results :
  Convert_range resV1 results
  = match first_error resV1 with
    | Some e => ([Stdout (failure_line e)], Exit 1)
    | None => ([], Done (results ++ conversions resV1))
    end.
Proof.
  revert results. induction resV1 as [|r resV1 IH]; intros results; simpl.
  - rewrite app_nil_r. reflexivity.
  - destruct (convertResource r) as [v [e|]]; simpl; [reflexivity|].
    rewrite IH. destruct (first_error resV1); [reflexivity|].
    rewrite <- app_assoc. reflexivity.
Qed.

Lemma Convert_resources_closed rp (resV1 : list Resource) :
  Convert_resources rp resV1
  = match first_error resV1 with
    | Some e => ([Stdout (failure_line e)], Exit 1)
    | None => (after_loop rp (conversions resV1), Done tt)
    end.
Proof.
  unfold Convert_resources. rewrite Convert_range_closed.
  destruct (first_error resV1); [reflexivity|].
  unfold after_loop. simpl. destruct (print rp (conversions resV1)); reflexivity.
Qed.

Lemma printed_after_loop rp results : printed (after_loop rp results) = [results].
Proof. unfold after_loop. simpl. destruct (print rp results); reflexivity. Qed.

Lemma conversions_lookup (resV1 : list Resource) i r :
  resV1 !! i = Some r -> conversions resV1 !! i = Some (convertResource r).1.
Proof. intros Hi. unfold conversions. rewrite list_lookup_fmap, Hi. reflexivity. Qed.

(** [Convert], once the arguments are parsed, a printer is chosen and the
    file is loaded, is [Convert_resources]. *)
Lemma Convert_loaded args parsedArgs output rp (resV1 : list Resource) :
  docopt_Parse doc args = (parsedArgs, None) ->
  size parsedArgs <> 0 ->
  parsedArgs !! "--output" = Some (VString output) ->
  select_printer output = Some rp ->
  CreateResourcesFromFile (ArgStringOrBlank parsedArgs "--filename") = (resV1, None) ->
  Convert args = Convert_resources rp resV1.
Proof.
  intros Hparse Hsize Hout Hrp Hload. unfold Convert.
  rewrite Hparse, bool_decide_eq_false_2, Hout by exact Hsize. simpl.
  rewrite Hrp, Hload.
  destruct (Convert_resources rp resV1) as [t o]. reflexivity.
Qed.

End DriverFacts.

(** ** The calls that [convert] makes *)

Section StageCallFacts.
Context {dt : Datatypes} {pk : Packages}.

Implicit Types (c : Converter) (r : Resource) (e : error).

Lemma convert_calls_stage1_error c r kvp e :
  APIV1ToBackendV1 c r = (kvp, Some e) ->
  convert_calls c r
  = {| calls := [Call_APIV1ToBackendV1 c r]; value := (None, Some e) |}.
Proof.
  intros Hs1. unfold convert_calls, calls_bind, call_APIV1ToBackendV1. simpl.
  rewrite Hs1. reflexivity.
Qed.

Lemma convert_calls_stage2 c r kvp :
  APIV1ToBackendV1 c r = (kvp, None) ->
  convert_calls c r
  = {| calls := [Call_APIV1ToBackendV1 c r; Call_BackendV1ToAPIV3 c kvp];
       value := match BackendV1ToAPIV3 c kvp with
                | (_, Some e) => (None, Some e)
                | (res, None) => (res, None)
                end |}.
Proof.
  intros Hs1. unfold convert_calls, calls_bind, call_APIV1ToBackendV1. simpl.
  rewrite Hs1. simpl.
  destruct (BackendV1ToAPIV3 c kvp) as [res [e|]]; reflexivity.
Qed.

(** Forgetting the calls gives [convert]. *)
Lemma convert_calls_value c r : value (convert_calls c r) = convert c r.
Proof.
  destruct (APIV1ToBackendV1 c r) as [kvp [e|]] eqn:Hs1.
  - rewrite (convert_calls_stage1_error c r kvp e Hs1),
      (convert_stage1_error c r kvp e Hs1). reflexivity.
  - rewrite (convert_calls_stage2 c r kvp Hs1), (convert_stage2 c r kvp Hs1).
    reflexivity.
Qed.

Lemma convertResource_calls_dispatch r :
  convertResource_calls r
  = match spec_dispatch (Kind (GetTypeMetadata r)) with
    | Dispatched c => convert_calls c r
    | UnsupportedKind kind => calls_ret (None, Some (errorString (unsupported_message kind)))
    end.
Proof.
  unfold convertResource_calls, spec_dispatch, recognized_kinds. simpl.
  repeat (match goal with
          | |- context [String.eqb ?a ?b] => destruct (String.eqb a b)
          end; [reflexivity|]).
  reflexivity.
Qed.

(** Forgetting the calls gives [convertResource]. *)
Lemma convertResource_calls_value r :
  value (convertResource_calls r) = convertResource r.
Proof.
  rewrite convertResource_calls_dispatch, convertResource_dispatch.
  destruct (spec_dispatch _); simpl; [apply convert_calls_value | reflexivity].
Qed.

End StageCallFacts.

(** ** The properties of the specification *)

Section Properties.
Context {dt : Datatypes} {pk : Packages}.

Implicit Types (c : Converter) (r : Resource) (e : error) (rp : resourcePrinter).

Lemma recognized_casing name c (kind : string) :
  (name, c) ∈ recognized_kinds ->
  GoStrings.is_casing name kind = true ->
  GoStrings.ToLower mapUnicodeToLower kind = name /\
  table_lookup recognized_kinds name = Some c.
Proof.
  intros Hin Hcase. unfold recognized_kinds in Hin.
  repeat (apply elem_of_cons in Hin as [[= -> ->]|Hin];
          [ split; [apply GoStringsFacts.ToLower_casing; [reflexivity | exact Hcase]
                   | reflexivity] | ]).
  apply elem_of_nil in Hin. contradiction.
Qed.

(** C1 (fail-fast): when a resource of the batch fails to convert, because
    its kind is unsupported or because a stage rejects it, the run stops at
    the first such resource: it prints that resource's error and exits with
    status 1.  However many resources converted before it, the loop returns
    no result sequence and nothing is handed to the printer. *)
Theorem Convert_fail_fast rp (resV1 : list Resource) :
  Exists (fun r => ~ converts r) resV1 ->
  exists pre bad post e,
    resV1 = pre ++ bad :: post /\
    Forall converts pre /\
    (convertResource bad).2 = Some e /\
    Convert_range resV1 [] = ([Stdout (failure_line e)], Exit 1) /\
    Convert_resources rp resV1 = ([Stdout (failure_line e)], Exit 1) /\
    printed (Convert_resources rp resV1).1 = [].
Proof.
  intros Hex.
  destruct (first_error_split resV1 Hex) as (pre & bad & post & e & Hsplit & Hpre & Hbad & Hfirst).
  exists pre, bad, post, e.
  rewrite Convert_range_closed, Convert_resources_closed, Hfirst.
  repeat split; assumption.
Qed.

(** C2 (order preservation): when every resource of the batch converts, the
    loop returns a sequence as long as the input whose i-th element is the
    conversion of the i-th input: the v3 resource that the second stage of
    the input's converter makes of what its first stage returned.  That
    sequence is the one handed to the printer. *)
Theorem Convert_order_preserved (resV1 : list Resource) :
  Forall converts resV1 ->
  exists results,
    Convert_range resV1 [] = ([], Done results) /\
    length results = length resV1 /\
    (forall i r, resV1 !! i = Some r ->
       exists name c kvp res,
         (name, c) ∈ recognized_kinds /\
         APIV1ToBackendV1 c r = (kvp, None) /\
         BackendV1ToAPIV3 c kvp = (res, None) /\
         convertResource r = (res, None) /\
         results !! i = Some res) /\
    (forall rp, printed (Convert_resources rp resV1).1 = [results]).
Proof.
  intros Hall. exists (conversions resV1).
  assert (Hfirst : first_error resV1 = None) by (apply first_error_None, Hall).
  repeat split.
  - rewrite Convert_range_closed, Hfirst. reflexivity.
  - unfold conversions. apply length_fmap.
  - intros i r Hi.
    pose proof (Forall_lookup_1 _ _ _ _ Hall Hi) as Hr.
    destruct (convertResource_ok_inv r Hr) as (name & c & Hin & Hconv).
    pose proof (conversions_lookup resV1 i r Hi) as Hres.
    unfold converts in Hr.
    destruct (convertResource r) as [res err] eqn:Hcr. simpl in Hr, Hres. subst err.
    destruct (convert_ok_inv c r res (eq_sym Hconv)) as (kvp & Hs1 & Hs2).
    exists name, c, kvp, res. auto.
  - intros rp. rewrite Convert_resources_closed, Hfirst. apply printed_after_loop.
Qed.

(** C3 (dispatch completeness): for each of the seven recognized kinds and
    every letter-casing of its name, the dispatch succeeds with the
    converter of that kind, and [convertResource] runs that converter. *)
Theorem dispatch_any_casing name c r :
  (name, c) ∈ recognized_kinds ->
  GoStrings.is_casing name (Kind (GetTypeMetadata r)) = true ->
  spec_dispatch (Kind (GetTypeMetadata r)) = Dispatched c /\
  convertResource r = convert c r.
Proof.
  intros Hin Hcase.
  destruct (recognized_casing name c _ Hin Hcase) as [Hlow Hlook].
  assert (Hd : spec_dispatch (Kind (GetTypeMetadata r)) = Dispatched c).
  { unfold spec_dispatch. rewrite Hlow, Hlook. reflexivity. }
  split; [exact Hd|].
  rewrite convertResource_dispatch, Hd. reflexivity.
Qed.

(** C4 (dispatch rejection): a kind whose lower-case form is none of the
    seven recognized names is refused, and the error names the kind as it
    was given, not its lower-case form. *)
Theorem dispatch_rejects_unknown r :
  GoStrings.ToLower mapUnicodeToLower (Kind (GetTypeMetadata r)) ∉ recognized_names ->
  spec_dispatch (Kind (GetTypeMetadata r)) = UnsupportedKind (Kind (GetTypeMetadata r)) /\
  convertResource r
  = (None,
     Some (errorString ("conversion for the resource type '"
                        +:+ Kind (GetTypeMetadata r) +:+ "' is not supported"))).
Proof.
  intros Hnot. split.
  - unfold spec_dispatch. rewrite table_lookup_None by exact Hnot. reflexivity.
  - apply convertResource_unsupported, Hnot.
Qed.

(** C5 (stage order): [convert] calls [APIV1ToBackendV1] first, once, on
    the resource.  When that call returns an error, it is the only call:
    [BackendV1ToAPIV3] is not called, and the error is the result.
    Otherwise [BackendV1ToAPIV3] is called next, once, on the KVPair the
    first stage returned, and its error, or else its resource, is the
    result.  [convertResource] makes these calls on the converter of the
    resource's kind, and none for an unsupported kind. *)
Theorem convert_stage_calls c r :
  (forall kvp e,
     APIV1ToBackendV1 c r = (kvp, Some e) ->
     calls (convert_calls c r) = [Call_APIV1ToBackendV1 c r] /\
     second_stage_calls (calls (convert_calls c r)) = [] /\
     value (convert_calls c r) = (None, Some e) /\
     convert c r = (None, Some e)) /\
  (forall kvp res e,
     APIV1ToBackendV1 c r = (kvp, None) ->
     BackendV1ToAPIV3 c kvp = (res, Some e) ->
     calls (convert_calls c r) = [Call_APIV1ToBackendV1 c r; Call_BackendV1ToAPIV3 c kvp] /\
     value (convert_calls c r) = (None, Some e) /\
     convert c r = (None, Some e)) /\
  (forall kvp res,
     APIV1ToBackendV1 c r = (kvp, None) ->
     BackendV1ToAPIV3 c kvp = (res, None) ->
     calls (convert_calls c r) = [Call_APIV1ToBackendV1 c r; Call_BackendV1ToAPIV3 c kvp] /\
     value (convert_calls c r) = (res, None) /\
     convert c r = (res, None)) /\
  convertResource_calls r
  = match spec_dispatch (Kind (GetTypeMetadata r)) with
    | Dispatched c' => convert_calls c' r
    | UnsupportedKind kind => calls_ret (None, Some (errorString (unsupported_message kind)))
    end /\
  value (convertResource_calls r) = convertResource r.
Proof.
  split; [|split; [|split; [|split]]].
  - intros kvp e Hs1.
    rewrite (convert_calls_stage1_error c r kvp e Hs1).
    rewrite (convert_stage1_error c r kvp e Hs1). auto.
  - intros kvp res e Hs1 Hs2.
    rewrite (convert_calls_stage2 c r kvp Hs1), (convert_stage2 c r kvp Hs1), Hs2. auto.
  - intros kvp res Hs1 Hs2.
    rewrite (convert_calls_stage2 c r kvp Hs1), (convert_stage2 c r kvp Hs1), Hs2. auto.
  - apply convertResource_calls_dispatch.
  - apply convertResource_calls_value.
Qed.

(** C6, as the code has it: [convertResource] and [convert] only return
    their errors, and it is the driver that presents a failure.  A run of
    the driver ends in one of two ways.  Either a resource fails, and the
    driver prints the line of the first error on standard output and exits
    the process with status 1; or every resource converts, and the driver
    first logs the results at the info level and then returns normally. *)
Theorem Convert_presents_failure rp (resV1 : list Resource) :
  (exists e,
     first_error resV1 = Some e /\
     Convert_resources rp resV1 = ([Stdout (failure_line e)], Exit 1)) \/
  (first_error resV1 = None /\
   exists t,
     Convert_resources rp resV1
     = (LogInfof "results: %+v" (conversions resV1) :: t, Done tt)).
Proof.
  rewrite Convert_resources_closed.
  destruct (first_error resV1) as [e|]; [left|right]; eauto.
Qed.

(** C7 (empty batch): on the empty sequence the loop returns the empty
    sequence without printing or exiting, and the driver hands the empty
    sequence to the printer and returns normally. *)
Theorem Convert_empty_batch :
  Convert_range [] [] = ([], Done []) /\
  forall rp,
    printed (Convert_resources rp []).1 = [[]] /\
    (Convert_resources rp []).2 = Done tt.
Proof.
  split; [reflexivity|].
  intros rp. rewrite Convert_resources_closed. simpl.
  split; [apply printed_after_loop | reflexivity].
Qed.

(** C9, as the code has it: after a batch in which every resource converts,
    the driver calls the printer once, with the whole sequence of
    conversions; an error of the printer is printed on standard output, and
    the driver returns normally whether the printer failed or not. *)
Theorem printer_called_once rp (resV1 : list Resource) :
  Forall converts resV1 ->
  printed (Convert_resources rp resV1).1 = [conversions resV1] /\
  (Convert_resources rp resV1).2 = Done tt /\
  (Convert_resources rp resV1).1
  = [LogInfof "results: %+v" (conversions resV1); PrinterCall rp (conversions resV1)]
    ++ match print rp (conversions resV1) with
       | Some e => [Stdout (Error e +:+ nl)]
       | None => []
       end.
Proof.
  intros Hall%first_error_None.
  rewrite Convert_resources_closed, Hall. simpl.
  split; [apply printed_after_loop | split; reflexivity].
Qed.

(** C10 (no partial value): when [convertResource] or [convert] returns an
    error, the resource it returns with it is nil, also when a stage of the
    converter returned a resource together with its error. *)
Theorem error_means_nil_resource r :
  ((convertResource r).2 <> None -> (convertResource r).1 = None) /\
  (forall c, (convert c r).2 <> None -> (convert c r).1 = None).
Proof.
  split.
  - destruct (convertResource r).2 as [e|] eqn:He; [|contradiction].
    intros _. apply (convertResource_error_nil r e He).
  - intros c. destruct (convert c r).2 as [e|] eqn:He; [|contradiction].
    intros _. apply (convert_error_nil c r e He).
Qed.

End Properties.

(** ** The properties on the small instance *)

Section Instance.
Import Fixture.
#[local] Existing Instance datatypes.
#[local] Existing Instance packages.

Lemma Convert_fail_fast_witness :
  Exists (fun r => ~ converts r) [validNode; unknownKindResource; validPolicy] /\
  exists pre bad post e,
    [validNode; unknownKindResource; validPolicy] = pre ++ bad :: post /\
    Forall converts pre /\
    (convertResource bad).2 = Some e /\
    Convert_range [validNode; unknownKindResource; validPolicy] []
    = ([Stdout (failure_line e)], Exit 1) /\
    Convert_resources printerOK [validNode; unknownKindResource; validPolicy]
    = ([Stdout (failure_line e)], Exit 1) /\
    printed (Convert_resources printerOK [validNode; unknownKindResource; validPolicy]).1 = [].
Proof.
  split; [|apply (Convert_fail_fast (dt:=datatypes) (pk:=packages) printerOK)];
    apply Exists_cons_tl, Exists_cons_hd; vm_compute; discriminate.
Defined.

Lemma Convert_order_preserved_witness :
  Forall converts [validNode; validPolicy] /\
  exists results,
    Convert_range [validNode; validPolicy] [] = ([], Done results) /\
    length results = length [validNode; validPolicy] /\
    (forall i r, [validNode; validPolicy] !! i = Some r ->
       exists name c kvp res,
         (name, c) ∈ recognized_kinds /\
         APIV1ToBackendV1 c r = (kvp, None) /\
         BackendV1ToAPIV3 c kvp = (res, None) /\
         convertResource r = (res, None) /\
         results !! i = Some res) /\
    (forall rp, printed (Convert_resources rp [validNode; validPolicy]).1 = [results]).
Proof.
  split; [|apply (Convert_order_preserved (dt:=datatypes) (pk:=packages))];
    repeat (apply Forall_cons; split; [vm_compute; reflexivity|]); apply Forall_nil_2.
Defined.

Lemma dispatch_any_casing_witness :
  ("policy", Policy) ∈ recognized_kinds /\
  GoStrings.is_casing "policy" (Kind (GetTypeMetadata (toy "PoLiCy" "allow-all"))) = true /\
  spec_dispatch (Kind (GetTypeMetadata (toy "PoLiCy" "allow-all"))) = Dispatched Policy /\
  convertResource (toy "PoLiCy" "allow-all") = convert Policy (toy "PoLiCy" "allow-all").
Proof.
  assert (Hin : ("policy", Policy) ∈ recognized_kinds)
    by (unfold recognized_kinds; repeat constructor).
  split; [exact Hin|].
  split; [vm_compute; reflexivity|].
  apply (dispatch_any_casing (dt:=datatypes) (pk:=packages) "policy" Policy (toy "PoLiCy" "allow-all") Hin).
  vm_compute. reflexivity.
Defined.

Lemma dispatch_rejects_unknown_witness :
  (GoStrings.ToLower mapUnicodeToLower (Kind (GetTypeMetadata unknownKindResource))
     ∉ recognized_names) /\
  spec_dispatch (Kind (GetTypeMetadata unknownKindResource)) = UnsupportedKind "Widget" /\
  convertResource unknownKindResource
  = (None,
     Some (errorString ("conversion for the resource type '"
                        +:+ "Widget" +:+ "' is not supported"))).
Proof.
  split; [|apply (dispatch_rejects_unknown (dt:=datatypes) (pk:=packages) unknownKindResource)];
    vm_compute; intros Hin;
    repeat (apply elem_of_cons in Hin as [Hin|Hin]; [discriminate Hin|]);
    apply elem_of_nil in Hin; exact Hin.
Defined.

Lemma convert_stage_calls_witness :
  APIV1ToBackendV1 Profile namelessProfile = (None, Some (toyError "name is required")) /\
  (calls (convert_calls Profile namelessProfile)
   = [Call_APIV1ToBackendV1 Profile namelessProfile] /\
   second_stage_calls (calls (convert_calls Profile namelessProfile)) = [] /\
   value (convert_calls Profile namelessProfile) = (None, Some (toyError "name is required")) /\
   convert Profile namelessProfile = (None, Some (toyError "name is required"))) /\
  (calls (convert_calls BGPPeer bothPeer)
   = [Call_APIV1ToBackendV1 BGPPeer bothPeer;
      Call_BackendV1ToAPIV3 BGPPeer (Some ("BGPPeer", "both"))] /\
   value (convert_calls BGPPeer bothPeer) = (None, Some (toyError "bad value")) /\
   convert BGPPeer bothPeer = (None, Some (toyError "bad value"))) /\
  (calls (convert_calls Node validNode)
   = [Call_APIV1ToBackendV1 Node validNode;
      Call_BackendV1ToAPIV3 Node (Some ("Node", "node-1"))] /\
   value (convert_calls Node validNode) = (Some "Node/node-1", None) /\
   convert Node validNode = (Some "Node/node-1", None)).
Proof.
  split; [reflexivity|].
  split; [|split].
  - apply (proj1 (convert_stage_calls (dt:=datatypes) (pk:=packages) Profile namelessProfile)
             None (toyError "name is required")).
    reflexivity.
  - apply (proj1 (proj2 (convert_stage_calls (dt:=datatypes) (pk:=packages) BGPPeer bothPeer))
             (Some ("BGPPeer", "both")) (Some "BGPPeer/both") (toyError "bad value"));
      reflexivity.
  - apply (proj1 (proj2 (proj2 (convert_stage_calls (dt:=datatypes) (pk:=packages)
                                  Node validNode)))
             (Some ("Node", "node-1")) (Some "Node/node-1"));
      reflexivity.
Defined.

(** C6 fails on the code: a batch with an unsupported kind makes the driver
    exit the process with status 1, and a batch that converts is logged. *)
Lemma Convert_exits_and_logs :
  Convert_resources printerOK [validNode; unknownKindResource; validPolicy]
  = ([Stdout (failure_line (errorString (unsupported_message "Widget")))], Exit 1) /\
  Convert_resources printerOK [validNode]
  = ([LogInfof "results: %+v" [Some "Node/node-1"];
      PrinterCall printerOK [Some "Node/node-1"]], Done tt).
Proof. split; reflexivity. Qed.

(** C9 fails on the code: when the printer returns an error, the driver
    prints it and returns as it does when the printer succeeds; the caller
    receives nothing. *)
Lemma printer_error_not_returned :
  print printerFailing (conversions [validNode]) = Some (toyError "write failed") /\
  print printerOK (conversions [validNode]) = None /\
  Convert_resources printerFailing [validNode]
  = ([LogInfof "results: %+v" [Some "Node/node-1"];
      PrinterCall printerFailing [Some "Node/node-1"];
      Stdout ("write failed" +:+ nl)], Done tt) /\
  (Convert_resources printerFailing [validNode]).2 = (Convert_resources printerOK [validNode]).2.
Proof. repeat split; reflexivity. Qed.

Lemma printer_called_once_witness :
  Forall converts [validNode; validPolicy] /\
  printed (Convert_resources printerFailing [validNode; validPolicy]).1
  = [conversions [validNode; validPolicy]] /\
  (Convert_resources printerFailing [validNode; validPolicy]).2 = Done tt /\
  (Convert_resources printerFailing [validNode; validPolicy]).1
  = [LogInfof "results: %+v" (conversions [validNode; validPolicy]);
     PrinterCall printerFailing (conversions [validNode; validPolicy])]
    ++ match print printerFailing (conversions [validNode; validPolicy]) with
       | Some e => [Stdout (Error e +:+ nl)]
       | None => []
       end.
Proof.
  split; [|apply (printer_called_once (dt:=datatypes) (pk:=packages) printerFailing)];
    repeat (apply Forall_cons; split; [vm_compute; reflexivity|]); apply Forall_nil_2.
Defined.

Lemma error_means_nil_resource_witness :
  BackendV1ToAPIV3 BGPPeer (APIV1ToBackendV1 BGPPeer bothPeer).1
  = (Some "BGPPeer/both", Some (toyError "bad value")) /\
  (convertResource bothPeer).2 <> None /\
  (convertResource bothPeer).1 = None /\
  (convert BGPPeer bothPeer).1 = None.
Proof.
  split; [reflexivity|].
  split; [vm_compute; discriminate|].
  split.
  - apply (proj1 (error_means_nil_resource (dt:=datatypes) (pk:=packages) bothPeer)). vm_compute. discriminate.
  - apply (proj2 (error_means_nil_resource (dt:=datatypes) (pk:=packages) bothPeer) BGPPeer). vm_compute. discriminate.
Defined.

End Instance.

(** ** The whole command *)

Section CommandFacts.
Context {dt : Datatypes} {pk : Packages}.

Implicit Types (rp : resourcePrinter) (e : error) (args : list string).

(** Every run of [Convert] is one of the paths. *)
Lemma Convert_path_complete args : Convert_path args (Convert args).
Proof.
  destruct (docopt_Parse doc args) as [parsedArgs [e|]] eqn:Hparse.
  { unfold Convert. rewrite Hparse. exact (path_invalid_option args parsedArgs e Hparse). }
  destruct (decide (size parsedArgs = 0)) as [Hsize|Hsize].
  { unfold Convert. rewrite Hparse, bool_decide_eq_true_2 by exact Hsize.
    exact (path_no_arguments args parsedArgs Hparse Hsize). }
  destruct (parsedArgs !! "--output") as [[output| | |]|] eqn:Hout;
    try (unfold Convert; rewrite Hparse, bool_decide_eq_false_2, Hout by exact Hsize;
         apply (path_output_not_string args parsedArgs Hparse Hsize);
         intros output; rewrite Hout; discriminate).
  destruct (select_printer output) as [rp|] eqn:Hrp.
  2:{ unfold Convert. rewrite Hparse, bool_decide_eq_false_2, Hout by exact Hsize.
      simpl. rewrite Hrp.
      exact (path_unrecognized_format args parsedArgs output Hparse Hsize Hout Hrp). }
  destruct (CreateResourcesFromFile (ArgStringOrBlank parsedArgs "--filename"))
    as [resV1 [e|]] eqn:Hload.
  { unfold Convert. rewrite Hparse, bool_decide_eq_false_2, Hout by exact Hsize.
    simpl. rewrite Hrp, Hload.
    exact (path_load_error args parsedArgs output rp resV1 e Hparse Hsize Hout Hrp Hload). }
  rewrite (Convert_loaded args parsedArgs output rp resV1 Hparse Hsize Hout Hrp Hload).
  rewrite Convert_resources_closed.
  destruct (first_error resV1) as [e|] eqn:Hfirst.
  - exact (path_conversion_error args parsedArgs output rp resV1 e
             Hparse Hsize Hout Hrp Hload Hfirst).
  - exact (path_printed args parsedArgs output rp resV1 Hparse Hsize Hout Hrp Hload Hfirst).
Qed.

Lemma select_printer_Some output rp :
  select_printer output = Some rp ->
  ((output = "yaml" \/ output = "yml") /\ rp = resourcePrinterYAML) \/
  (output = "json" /\ rp = resourcePrinterJSON).
Proof.
  unfold select_printer.
  destruct (String.eqb_spec output "yaml") as [->|Hyaml]; simpl.
  { intros [= <-]. auto. }
  destruct (String.eqb_spec output "yml") as [->|Hyml]; simpl.
  { intros [= <-]. auto. }
  destruct (String.eqb_spec output "json") as [->|Hjson]; [|discriminate].
  intros [= <-]. auto.
Qed.

Lemma select_printer_None output :
  select_printer output = None <-> output ∉ output_formats.
Proof.
  unfold select_printer, output_formats.
  rewrite !not_elem_of_cons.
  destruct (String.eqb_spec output "yaml") as [->|Hyaml]; simpl.
  { split; [discriminate | intros [Hne _]; contradiction]. }
  destruct (String.eqb_spec output "yml") as [->|Hyml]; simpl.
  { split; [discriminate | intros (_ & Hne & _); contradiction]. }
  destruct (String.eqb_spec output "json") as [->|Hjson].
  { split; [discriminate | intros (_ & _ & Hne & _); contradiction]. }
  split; [|reflexivity]. intros _. repeat split; auto using not_elem_of_nil.
Qed.

(** X1 (how the command fails): a run of [Convert] that exits the process
    exits with status 1, after printing exactly one line on standard output
    and nothing else: no log line, no call of a printer.  The line is the
    one for refused arguments, the one for an output format other than
    yaml, yml and json, or the line of an error of the loader or of a
    conversion. *)
Theorem Convert_exit_presentation args code :
  (Convert args).2 = Exit code ->
  code = 1%Z /\
  exists text,
    (Convert args).1 = [Stdout text] /\
    (text = invalid_option_line args \/
     (exists output, (output ∉ output_formats) /\ text = unrecognized_format_line output) \/
     (exists e, text = failure_line e)).
Proof.
  destruct (Convert_path_complete args)
    as [m e _|m _ _|m _ _ _|m output _ _ _ Hrp|m output rp resV1 e _ _ _ _ _
       |m output rp resV1 e _ _ _ _ _ _|m output rp resV1 _ _ _ _ _ _];
    simpl; intros [= <-]; (split; [reflexivity|]); eexists; (split; [reflexivity|]).
  - left. reflexivity.
  - right; left. exists output. split; [apply select_printer_None, Hrp | reflexivity].
  - right; right. exists e. reflexivity.
  - right; right. exists e. reflexivity.
Qed.

(** X3 (output formats): only the formats yaml, yml and json, written in
    lower case, have a printer.  With any other output format [Convert]
    prints that the format is unrecognized and exits with status 1, whatever
    the file holds. *)
Theorem Convert_unrecognized_format args parsedArgs output :
  docopt_Parse doc args = (parsedArgs, None) ->
  size parsedArgs <> 0 ->
  parsedArgs !! "--output" = Some (VString output) ->
  output ∉ output_formats ->
  Convert args
  = ([Stdout ("unrecognized output format '" +:+ output +:+ "'" +:+ nl)], Exit 1).
Proof.
  intros Hparse Hsize Hout Hfmt%select_printer_None.
  destruct (Convert_path_complete args)
    as [m e Hparse'|m Hparse' Hsize'|m Hparse' Hsize' Hout'
       |m output' Hparse' Hsize' Hout' Hrp'
       |m output' rp resV1 e Hparse' Hsize' Hout' Hrp' _
       |m output' rp resV1 e Hparse' Hsize' Hout' Hrp' _ _
       |m output' rp resV1 Hparse' Hsize' Hout' Hrp' _ _];
    rewrite Hparse in Hparse'; try discriminate; injection Hparse' as <-;
    try contradiction;
    try (exfalso; apply (Hout' output), Hout);
    rewrite Hout in Hout'; injection Hout' as <-;
    solve [ reflexivity | rewrite Hfmt in Hrp'; discriminate ].
Qed.

(** X5 (a command that succeeds): when the arguments are accepted, the
    output format is yaml, yml or json, the file loads and every resource of
    it converts, [Convert] logs the conversions, hands them, in the order of
    the file, to the JSON printer for json and to the YAML printer otherwise,
    prints the printer's error if it returns one, and returns normally. *)
Theorem Convert_succeeds args parsedArgs output (resV1 : list Resource) :
  docopt_Parse doc args = (parsedArgs, None) ->
  size parsedArgs <> 0 ->
  parsedArgs !! "--output" = Some (VString output) ->
  output ∈ output_formats ->
  CreateResourcesFromFile (ArgStringOrBlank parsedArgs "--filename") = (resV1, None) ->
  Forall converts resV1 ->
  let rp := if String.eqb output "json" then resourcePrinterJSON else resourcePrinterYAML in
  Convert args
  = ([LogInfof "results: %+v" (conversions resV1); PrinterCall rp (conversions resV1)]
     ++ match print rp (conversions resV1) with
        | Some e => [Stdout (Error e +:+ nl)]
        | None => []
        end,
     Done tt).
Proof.
  intros Hparse Hsize Hout Hfmt Hload Hall rp.
  assert (Hrp : select_printer output = Some rp).
  { unfold output_formats in Hfmt. subst rp.
    repeat (apply elem_of_cons in Hfmt as [->|Hfmt]; [reflexivity|]).
    apply elem_of_nil in Hfmt. contradiction. }
  rewrite (Convert_loaded args parsedArgs output rp resV1 Hparse Hsize Hout Hrp Hload).
  rewrite Convert_resources_closed.
  apply first_error_None in Hall. rewrite Hall. reflexivity.
Qed.

(** X6 (all or nothing, for the whole command): whenever a run of [Convert]
    calls a printer, it calls it once, the printer is the one of the output
    format, the file was loaded without error, every resource of it
    converted, and the printer received the conversions of all of them; the
    run logged them first and returns normally. *)
Theorem Convert_prints_all_or_nothing args rp (rs : list Object) :
  PrinterCall rp rs ∈ (Convert args).1 ->
  exists parsedArgs output resV1,
    docopt_Parse doc args = (parsedArgs, None) /\
    parsedArgs !! "--output" = Some (VString output) /\
    select_printer output = Some rp /\
    CreateResourcesFromFile (ArgStringOrBlank parsedArgs "--filename") = (resV1, None) /\
    Forall converts resV1 /\
    rs = conversions resV1 /\
    printed (Convert args).1 = [rs] /\
    (Convert args).1 !! 0 = Some (LogInfof "results: %+v" rs) /\
    (Convert args).2 = Done tt.
Proof.
  destruct (Convert_path_complete args)
    as [m e Hparse|m Hparse Hsize|m Hparse Hsize Hout|m output Hparse Hsize Hout Hrp
       |m output rp' resV1 e Hparse Hsize Hout Hrp Hload
       |m output rp' resV1 e Hparse Hsize Hout Hrp Hload Hfirst
       |m output rp' resV1 Hparse Hsize Hout Hrp Hload Hfirst];
    simpl; intros Hin;
    try (apply elem_of_nil in Hin; contradiction);
    try (apply list_elem_of_singleton in Hin; discriminate).
  assert (Hcall : rp = rp' /\ rs = conversions resV1).
  { unfold after_loop in Hin. simpl in Hin.
    apply elem_of_cons in Hin as [Hin|Hin]; [discriminate|].
    apply elem_of_cons in Hin as [Hin|Hin]; [injection Hin; auto|].
    destruct (print rp' (conversions resV1));
      [apply list_elem_of_singleton in Hin; discriminate
      |apply elem_of_nil in Hin; contradiction]. }
  destruct Hcall as [-> ->].
  exists m, output, resV1.
  repeat split; try assumption; try reflexivity.
  - apply first_error_None, Hfirst.
  - apply printed_after_loop.
Qed.

End CommandFacts.

(** ** Letter case and the error text *)

Module GoStringsCasing.
Import GoStrings.

Lemma lowerByte_casing (b : ascii) :
  isLowerByte (lowerByte b) = true ->
  bool_decide (b = lowerByte b) || bool_decide (b = upperByte (lowerByte b)) = true.
Proof.
  destruct b as [[] [] [] [] [] [] [] []]; intros Hlow;
    vm_compute in Hlow; try discriminate; vm_compute; reflexivity.
Qed.

(** A string whose byte-wise lower-casing is a lower-case word is a
    letter-casing of that word. *)
Lemma lowerBytes_casing (s : string) :
  all_lower s = true -> forall k, lowerBytes k = s -> is_casing s k = true.
Proof.
  induction s as [|a s IH]; intros Hlow [|b k] Hk; simpl in *; try discriminate; auto.
  injection Hk as <- Hk.
  apply andb_true_iff in Hlow as [Ha Hs].
  rewrite (lowerByte_casing b Ha). simpl. auto.
Qed.

Lemma length_append (s t : string) :
  String.length (s +:+ t) = String.length s + String.length t.
Proof. induction s as [|c s IH]; simpl; [reflexivity | rewrite IH; reflexivity]. Qed.

Lemma append_cancel_r (t s1 s2 : string) : s1 +:+ t = s2 +:+ t -> s1 = s2.
Proof.
  revert s2. induction s1 as [|c s1 IH]; intros [|d s2] Heq; simpl in Heq.
  - reflexivity.
  - apply (f_equal String.length) in Heq.
    rewrite !length_append in Heq. simpl in Heq. rewrite ?length_append in Heq. lia.
  - apply (f_equal String.length) in Heq.
    rewrite !length_append in Heq. simpl in Heq. rewrite ?length_append in Heq. lia.
  - injection Heq as -> Heq. f_equal. auto.
Qed.

End GoStringsCasing.

Section DispatchFacts.
Context {dt : Datatypes} {pk : Packages}.

Implicit Types (c : Converter) (r : Resource) (e : error).

Lemma recognized_names_lower name :
  name ∈ recognized_names -> GoStrings.all_lower name = true.
Proof.
  unfold recognized_names, recognized_kinds. simpl. intros Hin.
  repeat (apply elem_of_cons in Hin as [->|Hin]; [reflexivity|]).
  apply elem_of_nil in Hin. contradiction.
Qed.

Lemma table_lookup_Some_name (table : list (string * Converter)) name c :
  table_lookup table name = Some c -> name ∈ table.*1.
Proof.
  intros Hc%table_lookup_elem.
  apply list_elem_of_fmap. exists (name, c). auto.
Qed.

Lemma table_lookup_None_inv (table : list (string * Converter)) name :
  table_lookup table name = None -> name ∉ table.*1.
Proof.
  induction table as [|[n c] table IH]; simpl; [intros _; apply not_elem_of_nil|].
  destruct (String.eqb_spec name n) as [->|Hne]; [discriminate|].
  intros Hnone. apply not_elem_of_cons. auto.
Qed.

Lemma unsupported_message_inj k1 k2 :
  unsupported_message k1 = unsupported_message k2 -> k1 = k2.
Proof.
  unfold unsupported_message. intros Heq.
  apply String.app_inj in Heq.
  apply GoStringsCasing.append_cancel_r in Heq. exact Heq.
Qed.

(** X7 (splitting a batch): the loop over a batch in two parts is the loop
    over the first part followed by the loop over the second part from the
    results of the first; if the first part fails, the second is not
    converted. *)
Theorem Convert_range_app (l1 l2 : list Resource) (results : list Object) :
  Convert_range (l1 ++ l2) results
  = (results' ← Convert_range l1 results; Convert_range l2 results').
Proof.
  revert results. induction l1 as [|r l1 IH]; intros results; simpl.
  - destruct (Convert_range l2 results) as [t o]. reflexivity.
  - destruct (convertResource r) as [v [e|]]; [reflexivity|]. apply IH.
Qed.

(** X8 (nothing but a letter-casing is recognized): a kind written in ASCII
    that is not a letter-casing of one of the seven names, for instance a
    name with a space or a plural, is refused with the unsupported-kind
    error. *)
Theorem unsupported_unless_casing r :
  GoStrings.isASCII (Kind (GetTypeMetadata r)) = true ->
  (forall name, name ∈ recognized_names ->
                GoStrings.is_casing name (Kind (GetTypeMetadata r)) = false) ->
  convertResource r
  = (None,
     Some (errorString ("conversion for the resource type '"
                        +:+ Kind (GetTypeMetadata r) +:+ "' is not supported"))).
Proof.
  intros Hascii Hnone. apply convertResource_unsupported.
  intros Hin. specialize (Hnone _ Hin).
  rewrite GoStringsFacts.ToLower_ASCII in Hin, Hnone by exact Hascii.
  rewrite GoStringsCasing.lowerBytes_casing in Hnone;
    [discriminate | apply recognized_names_lower, Hin | reflexivity].
Qed.

(** X9 (letter case does not matter): two resources whose kinds, written in
    ASCII, differ only in the case of their letters are treated alike: both
    are converted by the same one of the seven converters, or both are
    refused, each with the error that names its own kind. *)
Theorem dispatch_case_insensitive r1 r2 :
  GoStrings.isASCII (Kind (GetTypeMetadata r1)) = true ->
  GoStrings.isASCII (Kind (GetTypeMetadata r2)) = true ->
  GoStrings.lowerBytes (Kind (GetTypeMetadata r1))
  = GoStrings.lowerBytes (Kind (GetTypeMetadata r2)) ->
  (exists name c,
     (name, c) ∈ recognized_kinds /\
     convertResource r1 = convert c r1 /\ convertResource r2 = convert c r2) \/
  (convertResource r1
   = (None, Some (errorString (unsupported_message (Kind (GetTypeMetadata r1))))) /\
   convertResource r2
   = (None, Some (errorString (unsupported_message (Kind (GetTypeMetadata r2)))))).
Proof.
  intros H1 H2 Hsame.
  rewrite !convertResource_dispatch. unfold spec_dispatch.
  rewrite !GoStringsFacts.ToLower_ASCII by assumption. rewrite <- Hsame.
  destruct (table_lookup recognized_kinds _) as [c|] eqn:Hc; simpl.
  - left. exists (GoStrings.lowerBytes (Kind (GetTypeMetadata r1))), c.
    split; [apply table_lookup_elem, Hc | split; reflexivity].
  - right. split; reflexivity.
Qed.

(** X10 (the error tells the kind): the unsupported-kind errors of two
    resources are the same only if the two kinds are the same string, letter
    case included. *)
Theorem unsupported_error_names_kind r1 r2 :
  GoStrings.ToLower mapUnicodeToLower (Kind (GetTypeMetadata r1)) ∉ recognized_names ->
  GoStrings.ToLower mapUnicodeToLower (Kind (GetTypeMetadata r2)) ∉ recognized_names ->
  (convertResource r1).2 = (convertResource r2).2 ->
  Kind (GetTypeMetadata r1) = Kind (GetTypeMetadata r2).
Proof.
  intros H1 H2.
  rewrite !convertResource_unsupported by assumption. cbn [snd].
  intros Heq. apply unsupported_message_inj. congruence.
Qed.

(** X11 (where an error comes from): an error returned by [convertResource]
    is either the unsupported-kind error for the resource's own kind, whose
    lower-case form is then none of the seven names, or the error that a
    stage of the converter of that kind returned: the first stage, or the
    second stage on the KVPair of a first stage that succeeded.  The
    resource returned with it is nil. *)
Theorem convertResource_error_origin r e :
  (convertResource r).2 = Some e ->
  (convertResource r).1 = None /\
  ((e = errorString (unsupported_message (Kind (GetTypeMetadata r))) /\
    GoStrings.ToLower mapUnicodeToLower (Kind (GetTypeMetadata r)) ∉ recognized_names) \/
   (exists c,
      (GoStrings.ToLower mapUnicodeToLower (Kind (GetTypeMetadata r)), c) ∈ recognized_kinds /\
      ((exists kvp, APIV1ToBackendV1 c r = (kvp, Some e)) \/
       (exists kvp res,
          APIV1ToBackendV1 c r = (kvp, None) /\ BackendV1ToAPIV3 c kvp = (res, Some e))))).
Proof.
  intros He. split; [apply (convertResource_error_nil r e He)|].
  revert He. rewrite convertResource_dispatch. unfold spec_dispatch.
  destruct (table_lookup recognized_kinds _) as [c|] eqn:Hc; simpl.
  - intros He. right. exists c. split; [apply table_lookup_elem, Hc|].
    unfold convert in He.
    destruct (APIV1ToBackendV1 c r) as [kvp [e1|]] eqn:Hs1; simpl in He.
    + injection He as ->. left. eauto.
    + destruct (BackendV1ToAPIV3 c kvp) as [res [e2|]] eqn:Hs2; simpl in He;
        [|discriminate].
      injection He as ->. right. eauto.
  - intros [= <-]. left. split; [reflexivity|]. apply table_lookup_None_inv, Hc.
Qed.

End DispatchFacts.

Section LoaderFacts.
Context {dt : Datatypes} {pk : Packages}.

(** X12 (a file that fails to load): when the loader returns an error,
    [Convert] prints it in a failure line and exits with status 1; the
    resources the loader may have returned with the error are not converted,
    and no printer is called. *)
Theorem Convert_load_error args parsedArgs output (resV1 : list Resource) (e : error) :
  docopt_Parse doc args = (parsedArgs, None) ->
  size parsedArgs <> 0 ->
  parsedArgs !! "--output" = Some (VString output) ->
  output ∈ output_formats ->
  CreateResourcesFromFile (ArgStringOrBlank parsedArgs "--filename") = (resV1, Some e) ->
  Convert args = ([Stdout ("Failed to execute command: " +:+ Error e +:+ nl)], Exit 1).
Proof.
  intros Hparse Hsize Hout Hfmt Hload.
  destruct (select_printer output) as [rp|] eqn:Hrp.
  2:{ apply select_printer_None in Hrp. contradiction. }
  unfold Convert. rewrite Hparse, bool_decide_eq_false_2, Hout by exact Hsize.
  simpl. rewrite Hrp, Hload. reflexivity.
Qed.

End LoaderFacts.

(** ** The command on the small instance *)

Section CommandLineInstance.
Import Fixture.
#[local] Existing Instance datatypes.
#[local] Existing Instance CommandLine.packages.

Lemma Convert_exit_presentation_witness :
  (Convert ["-f"; "mixed.yaml"; "-o"; "json"]).2 = Exit 1 /\
  (1 = 1)%Z /\
  exists text,
    (Convert ["-f"; "mixed.yaml"; "-o"; "json"]).1 = [Stdout text] /\
    (text = invalid_option_line ["-f"; "mixed.yaml"; "-o"; "json"] \/
     (exists output, (output ∉ output_formats) /\ text = unrecognized_format_line output) \/
     (exists e, text = failure_line e)).
Proof.
  split; [reflexivity|].
  apply (Convert_exit_presentation (dt:=datatypes) (pk:=CommandLine.packages)).
  reflexivity.
Defined.

Lemma Convert_unrecognized_format_witness :
  ("YAML" ∉ output_formats) /\
  Convert ["-f"; "nodes.yaml"; "-o"; "YAML"]
  = ([Stdout ("unrecognized output format '" +:+ "YAML" +:+ "'" +:+ nl)], Exit 1).
Proof.
  assert (Hfmt : "YAML" ∉ output_formats).
  { unfold output_formats. intros Hin.
    repeat (apply elem_of_cons in Hin as [Hin|Hin]; [discriminate Hin|]).
    apply elem_of_nil in Hin. exact Hin. }
  split; [exact Hfmt|].
  apply (Convert_unrecognized_format (dt:=datatypes) (pk:=CommandLine.packages)
           ["-f"; "nodes.yaml"; "-o"; "YAML"]
           (<["--output" := VString "YAML"]> {["--filename" := VString "nodes.yaml"]})
           "YAML");
    [reflexivity | vm_compute; discriminate | vm_compute; reflexivity | exact Hfmt].
Defined.

Lemma Convert_succeeds_witness :
  ("yml" ∈ output_formats) /\
  Forall converts [validNode; validPolicy] /\
  Convert ["-f"; "nodes.yaml"; "-o"; "yml"]
  = ([LogInfof "results: %+v" (conversions [validNode; validPolicy]);
      PrinterCall resourcePrinterYAML (conversions [validNode; validPolicy])]
     ++ match print resourcePrinterYAML (conversions [validNode; validPolicy]) with
        | Some e => [Stdout (Error e +:+ nl)]
        | None => []
        end,
     Done tt).
Proof.
  assert (Hfmt : "yml" ∈ output_formats) by (unfold output_formats; repeat constructor).
  assert (Hall : Forall (converts (dt:=datatypes) (pk:=CommandLine.packages))
                   [validNode; validPolicy]).
  { repeat (apply Forall_cons; split; [vm_compute; reflexivity|]). apply Forall_nil_2. }
  split; [exact Hfmt|]. split; [exact Hall|].
  apply (Convert_succeeds (dt:=datatypes) (pk:=CommandLine.packages)
           ["-f"; "nodes.yaml"; "-o"; "yml"]
           (<["--output" := VString "yml"]> {["--filename" := VString "nodes.yaml"]})
           "yml" [validNode; validPolicy]);
    [reflexivity | vm_compute; discriminate | vm_compute; reflexivity | exact Hfmt
    | reflexivity | exact Hall].
Defined.

Lemma Convert_prints_all_or_nothing_witness :
  PrinterCall CommandLine.printerJSON [Some "Node/node-1"; Some "GlobalNetworkPolicy/allow-all"]
    ∈ (Convert ["-f"; "nodes.yaml"; "-o"; "json"]).1 /\
  exists parsedArgs output resV1,
    docopt_Parse doc ["-f"; "nodes.yaml"; "-o"; "json"] = (parsedArgs, None) /\
    parsedArgs !! "--output" = Some (VString output) /\
    select_printer output = Some CommandLine.printerJSON /\
    CreateResourcesFromFile (ArgStringOrBlank parsedArgs "--filename") = (resV1, None) /\
    Forall converts resV1 /\
    [Some "Node/node-1"; Some "GlobalNetworkPolicy/allow-all"] = conversions resV1 /\
    printed (Convert ["-f"; "nodes.yaml"; "-o"; "json"]).1
    = [[Some "Node/node-1"; Some "GlobalNetworkPolicy/allow-all"]] /\
    (Convert ["-f"; "nodes.yaml"; "-o"; "json"]).1 !! 0
    = Some (LogInfof "results: %+v" [Some "Node/node-1"; Some "GlobalNetworkPolicy/allow-all"]) /\
    (Convert ["-f"; "nodes.yaml"; "-o"; "json"]).2 = Done tt.
Proof.
  assert (Hcall :
    PrinterCall CommandLine.printerJSON
      [Some "Node/node-1"; Some "GlobalNetworkPolicy/allow-all"]
      ∈ (Convert ["-f"; "nodes.yaml"; "-o"; "json"]).1).
  { apply list_elem_of_further, list_elem_of_here. }
  split; [exact Hcall|].
  apply (Convert_prints_all_or_nothing (dt:=datatypes) (pk:=CommandLine.packages)), Hcall.
Defined.

Lemma unsupported_unless_casing_witness :
  GoStrings.isASCII (Kind (GetTypeMetadata (toy "nodes" "n"))) = true /\
  (forall name, name ∈ recognized_names ->
                GoStrings.is_casing name (Kind (GetTypeMetadata (toy "nodes" "n"))) = false) /\
  convertResource (toy "nodes" "n")
  = (None,
     Some (errorString ("conversion for the resource type '"
                        +:+ "nodes" +:+ "' is not supported"))).
Proof.
  assert (Hnone : forall name, name ∈ recognized_names (dt:=datatypes) (pk:=CommandLine.packages) ->
                    GoStrings.is_casing name "nodes" = false).
  { intros name Hin. unfold recognized_names, recognized_kinds in Hin. simpl in Hin.
    repeat (apply elem_of_cons in Hin as [->|Hin]; [reflexivity|]).
    apply elem_of_nil in Hin. contradiction. }
  split; [reflexivity|]. split; [exact Hnone|].
  apply (unsupported_unless_casing (dt:=datatypes) (pk:=CommandLine.packages) (toy "nodes" "n"));
    [reflexivity | exact Hnone].
Defined.

Lemma dispatch_case_insensitive_witness :
  GoStrings.lowerBytes (Kind (GetTypeMetadata (toy "IPPool" "a")))
  = GoStrings.lowerBytes (Kind (GetTypeMetadata (toy "ipPOOL" "b"))) /\
  ((exists name c,
      (name, c) ∈ recognized_kinds /\
      convertResource (toy "IPPool" "a") = convert c (toy "IPPool" "a") /\
      convertResource (toy "ipPOOL" "b") = convert c (toy "ipPOOL" "b")) \/
   (convertResource (toy "IPPool" "a")
    = (None, Some (errorString (unsupported_message "IPPool"))) /\
    convertResource (toy "ipPOOL" "b")
    = (None, Some (errorString (unsupported_message "ipPOOL"))))).
Proof.
  split; [reflexivity|].
  apply (dispatch_case_insensitive (dt:=datatypes) (pk:=CommandLine.packages)
           (toy "IPPool" "a") (toy "ipPOOL" "b")); reflexivity.
Defined.

Lemma unsupported_error_names_kind_witness :
  (convertResource (toy "Widget" "a")).2 = (convertResource (toy "Widget" "b")).2 /\
  Kind (GetTypeMetadata (toy "Widget" "a")) = Kind (GetTypeMetadata (toy "Widget" "b")).
Proof.
  split; [reflexivity|].
  apply (unsupported_error_names_kind (dt:=datatypes) (pk:=CommandLine.packages)
           (toy "Widget" "a") (toy "Widget" "b"));
    [ | | reflexivity];
    vm_compute; intros Hin;
    repeat (apply elem_of_cons in Hin as [Hin|Hin]; [discriminate Hin|]);
    apply elem_of_nil in Hin; exact Hin.
Defined.

Lemma convertResource_error_origin_witness :
  (convertResource bothPeer).2 = Some (toyError "bad value") /\
  (convertResource bothPeer).1 = None /\
  ((toyError "bad value" = errorString (unsupported_message (Kind (GetTypeMetadata bothPeer))) /\
    GoStrings.ToLower mapUnicodeToLower (Kind (GetTypeMetadata bothPeer)) ∉ recognized_names) \/
   (exists c,
      (GoStrings.ToLower mapUnicodeToLower (Kind (GetTypeMetadata bothPeer)), c)
        ∈ recognized_kinds /\
      ((exists kvp, APIV1ToBackendV1 c bothPeer = (kvp, Some (toyError "bad value"))) \/
       (exists kvp res,
          APIV1ToBackendV1 c bothPeer = (kvp, None) /\
          BackendV1ToAPIV3 c kvp = (res, Some (toyError "bad value")))))).
Proof.
  split; [reflexivity|].
  apply (convertResource_error_origin (dt:=datatypes) (pk:=CommandLine.packages) bothPeer).
  reflexivity.
Defined.

Lemma Convert_load_error_witness :
  CreateResourcesFromFile "cut.yaml" = ([validNode], Some (toyError "unexpected end")) /\
  Convert ["-f"; "cut.yaml"; "-o"; "json"]
  = ([Stdout ("Failed to execute command: " +:+ "unexpected end" +:+ nl)], Exit 1).
Proof.
  split; [reflexivity|].
  apply (Convert_load_error (dt:=datatypes) (pk:=CommandLine.packages)
           ["-f"; "cut.yaml"; "-o"; "json"]
           (<["--output" := VString "json"]> {["--filename" := VString "cut.yaml"]})
           "json" [validNode] (toyError "unexpected end"));
    [reflexivity | vm_compute; discriminate | vm_compute; reflexivity
    | unfold output_formats; repeat constructor | reflexivity].
Defined.

End CommandLineInstance.
